(** * eralchemy.sqla: SQLAlchemy metadata to the intermediary syntax

    A shallow embedding of [eralchemy/sqla.py] and the properties its
    specification states about it.

    Python exceptions are carried by ExtLib's error monad [sum exn]:
    [inl e] is "raised [e]", [inr v] is "returned [v]".  [try ... except C]
    is [catch] with a handler that re-raises what is not an instance of [C]. *)

From Stdlib Require Import String Ascii List Bool Arith Lia.
From ExtLib Require Import Structures.Monad Structures.MonadExc.
From ExtLib Require Import Data.Monads.EitherMonad.
Import ListNotations.
Import MonadNotation.
Local Open Scope monad_scope.
Local Open Scope string_scope.
Local Open Scope list_scope.

Set Implicit Arguments.

(* ===================================================================== *)
(** ** The Python fragment the module runs on *)
(* ===================================================================== *)

Module python.

(** Exception classes.  The built-in ones and SQLAlchemy's are listed;
    [UserError name base] is any further class derived from [base]. *)
Inductive ExcClass : Type :=
| BaseException
| KeyboardInterrupt
| Exception
| AttributeError
| TypeError
| ValueError
| NotImplementedError
| SQLAlchemyError
| ArgumentError
| CompileError
| UnsupportedCompilationError
| UserError (name : string) (base : ExcClass).

Definition ExcClass_eq_dec (c d : ExcClass) : {c = d} + {c <> d}.
Proof. decide equality. apply string_dec. Defined.

(** The method resolution order of a class: itself, then its ancestors. *)
Fixpoint mro (c : ExcClass) : list ExcClass :=
  c :: match c with
       | BaseException => []
       | KeyboardInterrupt | Exception => [BaseException]
       | AttributeError | TypeError | ValueError | NotImplementedError
       | SQLAlchemyError => [Exception; BaseException]
       | ArgumentError | CompileError =>
           [SQLAlchemyError; Exception; BaseException]
       | UnsupportedCompilationError =>
           [CompileError; SQLAlchemyError; Exception; BaseException]
       | UserError _ base => mro base
       end.

Definition issubclass (c d : ExcClass) : bool :=
  if in_dec ExcClass_eq_dec d (mro c) then true else false.

(** A raised exception: its class and its message. *)
Record exn : Type := mk_exn { exn_class : ExcClass; exn_msg : string }.

Definition isinstance (e : exn) (c : ExcClass) : bool :=
  issubclass (exn_class e) c.

(** The outcome of evaluating a Python expression. *)
Abbreviation result := (sum exn).

(** [try: body  except cls: handler] *)
Definition try_except {A} (body : result A) (cls : ExcClass)
           (handler : result A) : result A :=
  catch body (fun e => if isinstance e cls then handler else raise e).

(** The [__str__] protocol: what [str(x)] does on a value of type [A]. *)
Class Str (A : Type) : Type := __str__ : A -> result string.

(** [str(s)] of a string is the string. *)
#[global] Instance Str_string : Str string := fun s => ret s.

(** [unicode] is [str] on Python 3 (lines 11-12). *)
Definition unicode {A} `{Str A} (x : A) : result string := __str__ x.

(** A value that is text or [None], as the name of a column is: a
    column made without a name has [None] for it until it joins a table. *)
Inductive text_or_None : Type :=
| Text (s : string)
| PyNone.

Coercion Text : string >-> text_or_None.

Definition is_text (v : text_or_None) : bool :=
  match v with
  | Text _ => true
  | PyNone => false
  end.

(** [str.isascii]: every character is below 128.  ASCII characters are
    held as themselves in a [string], the others as their UTF-8 bytes. *)
Definition is_ascii_char (c : ascii) : bool := (nat_of_ascii c <? 128)%nat.

Fixpoint isascii (s : string) : bool :=
  match s with
  | EmptyString => true
  | String c s' => is_ascii_char c && isascii s'
  end.

(** What [str.lower] does to ASCII text: [A-Z] go to [a-z], the rest is
    kept. *)
Definition is_ascii_upper (c : ascii) : bool :=
  ((65 <=? nat_of_ascii c) && (nat_of_ascii c <=? 90))%nat.

Definition lower_char (c : ascii) : ascii :=
  if is_ascii_upper c then ascii_of_nat (nat_of_ascii c + 32) else c.

Fixpoint ascii_lower (s : string) : string :=
  match s with
  | EmptyString => EmptyString
  | String c s' => String (lower_char c) (ascii_lower s')
  end.

(** [str.lower].  On other than ASCII text it follows the Unicode tables,
    which this development does not hold: [lower] is whatever the
    interpreter provides, known to lower ASCII text letter by letter. *)
Class StrLower : Type :=
  { lower : string -> string;
    lower_on_ascii : forall s, isascii s = true -> lower s = ascii_lower s }.

(** An interpreter whose [str.lower] only knows the ASCII letters; it
    serves to run the module on ASCII names. *)
Definition ascii_interpreter : StrLower :=
  {| lower := ascii_lower; lower_on_ascii := fun _ _ => eq_refl |}.

(** [for x in xs: s = body(s, x)], stopping at the first exception. *)
Fixpoint for_in {A S} (xs : list A) (body : S -> A -> result S) (s : S)
  : result S :=
  match xs with
  | [] => ret s
  | x :: xs' => s' <- body s x ;; for_in xs' body s'
  end.

(** [[e(x) for x in xs]]: a fresh list, one [append] per iteration. *)
Definition list_comp {A B} (e : A -> result B) (xs : list A)
  : result (list B) :=
  for_in xs (fun acc x => v <- e x ;; ret (acc ++ [v])) [].

(** [[e(y) for x in xs for y in inner(x)]] *)
Definition list_comp2 {A B C} (e : B -> result C) (xs : list A)
           (inner : A -> list B) : result (list C) :=
  for_in xs
         (fun acc x =>
            for_in (inner x) (fun acc' y => v <- e y ;; ret (acc' ++ [v])) acc)
         [].

(** An insertion-ordered [dict] with string keys. *)
Definition OrderedDict (V : Type) : Type := list (string * V).

Definition values {V} (d : OrderedDict V) : list V := map snd d.

End python.
Import python.

(** A class object, as far as the module looks at one. *)
Record class : Type := { __name__ : string }.

(* ===================================================================== *)
(** ** The SQLAlchemy objects the module reads *)
(* ===================================================================== *)

Module sqlalchemy.

(** A column type.  [compile] is the outcome of [TypeEngine.__str__], which
    renders the type with the default dialect: the rendered text, or the
    exception the rendering raised ([CompileError] for a [NullType]). *)
Record TypeEngine : Type := { compile : result string }.

#[global] Instance Str_TypeEngine : Str TypeEngine := fun t => compile t.

(** What a column or a foreign key sees of the table that owns it. *)
Record FromClause : Type := { fullname : string }.

Record Column : Type :=
  { name : text_or_None;
    type : TypeEngine;
    primary_key : bool;
    nullable : bool;
    table : FromClause }.

(** [parent] holds the key; [column] is the referred column.  The foreign
    keys taken here are resolved ones: for a key whose target table or
    column is missing, reading [column] raises in SQLAlchemy and no
    relation is built; nothing is stated of such keys. *)
Record ForeignKey : Type := { parent : Column; column : Column }.

(** [table.c]: the columns, kept in declaration order in [_data]. *)
Record ColumnCollection : Type := { _data : OrderedDict Column }.

(** [foreign_keys] is a set; the list is its iteration order. *)
Record Table : Type :=
  { selectable : FromClause;
    c : ColumnCollection;
    foreign_keys : list ForeignKey }.

(** [metadata.tables]: the tables by key, in insertion order. *)
Record MetaData : Type := { tables : OrderedDict Table }.

(** A declarative base, of which the module reads [metadata]. *)
Record DeclarativeBase : Type := { metadata : MetaData }.

End sqlalchemy.

(** A table stands for its own [FromClause] where its name is read. *)
Coercion sqlalchemy.selectable : sqlalchemy.Table >-> sqlalchemy.FromClause.

(* ===================================================================== *)
(** ** The intermediary syntax ([eralchemy.models]) *)
(* ===================================================================== *)

Module models.

(** Modelled from the spec: the [Column] record of [eralchemy.models],
    whose constructor stores [name], [type] and [is_key]. *)
Record Column : Type :=
  { name : text_or_None; type : string; is_key : bool }.

(** Modelled from the spec: the [Table] record of [eralchemy.models],
    whose constructor stores [name] and the ordered [columns]. *)
Record Table : Type := { t_name : string; columns : list Column }.

(** Modelled from the spec: the [Relation] record of [eralchemy.models],
    whose constructor stores the two table names and the two cardinality
    symbols. *)
Record Relation : Type :=
  { left_col : string;
    right_col : string;
    left_cardinality : string;
    right_cardinality : string }.

End models.

(* ===================================================================== *)
(** ** [eralchemy/sqla.py] *)
(* ===================================================================== *)

Module sqla.
Import models.

(** Transforms the name into a nice string representation (lines 40-43). *)
Definition format_name (name : string) : result string :=
  unicode name.

(** Transforms an SQLAlchemy ForeignKey object to its intermediary
    representation (lines 15-28). *)
Definition relation_to_intermediary (fk : sqlalchemy.ForeignKey)
  : result Relation :=
  let parent := sqlalchemy.parent fk in
  let referred := sqlalchemy.column fk in
  l <- format_name (sqlalchemy.fullname (sqlalchemy.table parent)) ;;
  r <- format_name (sqlalchemy.fullname (sqlalchemy.table referred)) ;;
  ret {| left_col := l;
         right_col := r;
         left_cardinality := if sqlalchemy.nullable parent then "*" else "+";
         right_cardinality := if sqlalchemy.nullable referred then "?" else "1" |}.

(** Transforms the type into a nice string representation (lines 31-37). *)
Definition format_type (typ : sqlalchemy.TypeEngine) : result string :=
  try_except (unicode typ) CompileError (ret "Null").

(** Transforms an SQLAlchemy Column object to its intermediary
    representation (lines 46-54); [type_formatter] defaults to
    [format_type]. *)
Definition column_to_intermediary (col : sqlalchemy.Column)
           (type_formatter : sqlalchemy.TypeEngine -> result string)
  : result Column :=
  typ <- type_formatter (sqlalchemy.type col) ;;
  ret {| name := sqlalchemy.name col;
         type := typ;
         is_key := sqlalchemy.primary_key col |}.

(** Transforms an SQLAlchemy Table object to its intermediary
    representation (lines 57-64). *)
Definition table_to_intermediary (table : sqlalchemy.Table) : result Table :=
  cols <- list_comp (fun col => column_to_intermediary col format_type)
                    (values (sqlalchemy._data (sqlalchemy.c table))) ;;
  ret {| t_name := sqlalchemy.fullname table; columns := cols |}.

(** Transforms SQLAlchemy metadata to the intermediary representation
    (lines 67-78). *)
Definition metadata_to_intermediary (metadata : sqlalchemy.MetaData)
  : result (list Table * list Relation) :=
  tables <- list_comp table_to_intermediary
                      (values (sqlalchemy.tables metadata)) ;;
  relationships <- list_comp2 relation_to_intermediary
                              (values (sqlalchemy.tables metadata))
                              sqlalchemy.foreign_keys ;;
  ret (tables, relationships).

(** Transforms an SQLAlchemy Declarative Base to the intermediary
    representation (lines 81-85). *)
Definition declarative_to_intermediary (base : sqlalchemy.DeclarativeBase)
  : result (list Table * list Relation) :=
  metadata_to_intermediary (sqlalchemy.metadata base).

(** Overrides naming schemes (lines 88-92); handed to [Base.prepare] by
    [database_to_intermediary] (line 111). *)
Definition name_for_scalar_relationship `{StrLower} {B L K : Type}
           (base : B) (local_cls : L) (referred_cls : class) (constraint : K)
  : string :=
  let name := (lower (__name__ referred_cls) ++ "_ref")%string in
  name.

End sqla.

(* ===================================================================== *)
(** ** What the specification says, in its own words *)
(* ===================================================================== *)

Module spec.
Import models.

(** "applying [f] to every element of the sequence, in order": the
    elements one after the other, the first exception ending the walk. *)
Fixpoint each {A B} (f : A -> result B) (xs : list A) : result (list B) :=
  match xs with
  | [] => ret []
  | x :: xs' => y <- f x ;; ys <- each f xs' ;; ret (y :: ys)
  end.

(** "every foreign key found on every table, in table iteration order then
    per-table foreign-key order". *)
Definition every_foreign_key (metadata : sqlalchemy.MetaData)
  : list sqlalchemy.ForeignKey :=
  flat_map sqlalchemy.foreign_keys (values (sqlalchemy.tables metadata)).

(** "the full ordered sequence of translated tables, followed by a sequence
    of translated relations obtained by applying [translate_relation] to
    every foreign key found on every table". *)
Definition translate_metadata (metadata : sqlalchemy.MetaData)
  : result (list Table * list Relation) :=
  tables <- each sqla.table_to_intermediary
                 (values (sqlalchemy.tables metadata)) ;;
  relations <- each sqla.relation_to_intermediary
                    (every_foreign_key metadata) ;;
  ret (tables, relations).

(** The same foreign key between the same tables, its two columns given
    other names: what a relation keeps must not depend on them. *)
Definition renamed (col : sqlalchemy.Column) (name : string)
  : sqlalchemy.Column :=
  {| sqlalchemy.name := name;
     sqlalchemy.type := sqlalchemy.type col;
     sqlalchemy.primary_key := sqlalchemy.primary_key col;
     sqlalchemy.nullable := sqlalchemy.nullable col;
     sqlalchemy.table := sqlalchemy.table col |}.

Definition with_column_names (fk : sqlalchemy.ForeignKey) (p r : string)
  : sqlalchemy.ForeignKey :=
  {| sqlalchemy.parent := renamed (sqlalchemy.parent fk) p;
     sqlalchemy.column := renamed (sqlalchemy.column fk) r |}.

(** "lowercased": a letter of the upper-case alphabet becomes the letter
    at the same place of the lower-case alphabet; any other character is
    kept. *)
Definition upper_case : string := "ABCDEFGHIJKLMNOPQRSTUVWXYZ".
Definition lower_case : string := "abcdefghijklmnopqrstuvwxyz".

Fixpoint place (ch : ascii) (alphabet : string) : option nat :=
  match alphabet with
  | EmptyString => None
  | String a rest =>
      if Ascii.eqb ch a then Some 0 else option_map S (place ch rest)
  end.

Definition lowercase_letter (ch : ascii) : ascii :=
  match place ch upper_case with
  | Some i => match String.get i lower_case with
              | Some l => l
              | None => ch
              end
  | None => ch
  end.

(** "the lowercased referred-entity name suffixed with [_ref]", read
    character by character: the result is some text followed by [_ref];
    that text is as long as the name, its characters are the name's,
    lowercased, and none of them is an upper-case letter. *)
Definition is_lowercased_with_ref (name out : string) : Prop :=
  exists low : string,
    out = (low ++ "_ref")%string /\
    String.length low = String.length name /\
    (forall i, String.get i low
               = option_map lowercase_letter (String.get i name)) /\
    (forall i ch, String.get i low = Some ch -> place ch upper_case = None).

End spec.

(* ===================================================================== *)
(** ** A schema to run the module on *)
(* ===================================================================== *)

Module example.
Import sqlalchemy.

Definition INTEGER : TypeEngine := {| compile := ret "INTEGER" |}.
Definition VARCHAR : TypeEngine := {| compile := ret "VARCHAR" |}.

(** A column declared without a type gets a [NullType], which the default
    dialect refuses to render. *)
Definition NullType : TypeEngine :=
  {| compile := raise (mk_exn CompileError "Can't generate DDL for NullType()") |}.

(** A dialect-specific refusal is a subclass of [CompileError]. *)
Definition Unsupported : TypeEngine :=
  {| compile := raise (mk_exn UnsupportedCompilationError "no visit method") |}.

(** A user-defined type whose column specification is the text [Null]. *)
Definition NullText : TypeEngine := {| compile := ret "Null" |}.

(** A user-defined type that forgot [get_col_spec]. *)
Definition no_col_spec : exn :=
  mk_exn AttributeError "'Point' object has no attribute 'get_col_spec'".

Definition Point : TypeEngine := {| compile := raise no_col_spec |}.

Definition users_t : FromClause := {| fullname := "users" |}.
Definition orders_t : FromClause := {| fullname := "orders" |}.

Definition users_id : Column :=
  {| name := "id"; type := INTEGER; primary_key := true; nullable := false;
     table := users_t |}.
Definition users_name : Column :=
  {| name := "name"; type := VARCHAR; primary_key := false; nullable := true;
     table := users_t |}.
Definition orders_id : Column :=
  {| name := "id"; type := INTEGER; primary_key := true; nullable := false;
     table := orders_t |}.
Definition orders_user_id : Column :=
  {| name := "user_id"; type := INTEGER; primary_key := false;
     nullable := false; table := orders_t |}.

Definition users : Table :=
  {| selectable := users_t;
     c := {| _data := [("id", users_id); ("name", users_name)] |};
     foreign_keys := [] |}.

Definition orders : Table :=
  {| selectable := orders_t;
     c := {| _data := [("id", orders_id); ("user_id", orders_user_id)] |};
     foreign_keys := [ {| parent := orders_user_id; column := users_id |} ] |}.

Definition shop : MetaData :=
  {| tables := [("users", users); ("orders", orders)] |}.

(** A column whose type cannot be rendered, for a reason other than a
    compilation failure. *)
Definition location : Column :=
  {| name := "location"; type := Point; primary_key := false;
     nullable := true; table := users_t |}.

(** A column made without a name and not yet part of a table. *)
Definition nameless : Column :=
  {| name := PyNone; type := INTEGER; primary_key := false;
     nullable := true; table := users_t |}.

Definition places : Table :=
  {| selectable := {| fullname := "places" |};
     c := {| _data := [("id", users_id); ("location", location)] |};
     foreign_keys := [] |}.

End example.

(* ===================================================================== *)
(** ** What can be told of a schema before translating it *)
(* ===================================================================== *)

Module schema.

(** The string conversion of the type returns, or raises what
    [format_type] catches. *)
Definition type_renders (typ : sqlalchemy.TypeEngine) : bool :=
  match unicode typ with
  | inr _ => true
  | inl e => isinstance e CompileError
  end.

(** The text a column type is shown as once [format_type] has returned. *)
Definition shown_type (typ : sqlalchemy.TypeEngine) : string :=
  match unicode typ with
  | inr text => text
  | inl _ => "Null"
  end.

Definition table_renders (t : sqlalchemy.Table) : bool :=
  forallb (fun col => type_renders (sqlalchemy.type col))
          (values (sqlalchemy._data (sqlalchemy.c t))).

Definition metadata_renders (metadata : sqlalchemy.MetaData) : bool :=
  forallb table_renders (values (sqlalchemy.tables metadata)).

(** Every foreign key of every table starts and ends at a table of the
    metadata. *)
Definition references_resolve (metadata : sqlalchemy.MetaData) : Prop :=
  let owners := map sqlalchemy.selectable
                    (values (sqlalchemy.tables metadata)) in
  forall t fk,
    In t (values (sqlalchemy.tables metadata)) ->
    In fk (sqlalchemy.foreign_keys t) ->
    In (sqlalchemy.table (sqlalchemy.parent fk)) owners /\
    In (sqlalchemy.table (sqlalchemy.column fk)) owners.

(** Two metadata put together, the tables of the first coming first. *)
Definition merged (m1 m2 : sqlalchemy.MetaData) : sqlalchemy.MetaData :=
  {| sqlalchemy.tables := sqlalchemy.tables m1 ++ sqlalchemy.tables m2 |}.

End schema.

(* ===================================================================== *)
(** ** Loops and comprehensions *)
(* ===================================================================== *)

Section comprehensions.
Variables A B : Type.
Variable e : A -> result B.

(** A comprehension loop entered with [acc] already collected returns
    [acc] followed by the translations of the remaining elements. *)
Lemma for_in_collect (xs : list A) (acc : list B) :
  for_in xs (fun acc x => v <- e x ;; ret (acc ++ [v])) acc
  = (ys <- spec.each e xs ;; ret (acc ++ ys)).
Proof.
  revert acc; induction xs as [|x xs IH]; intros acc; simpl.
  - now rewrite app_nil_r.
  - destruct (e x) as [err|y]; simpl; [reflexivity|].
    rewrite IH. destruct (spec.each e xs) as [err|ys]; simpl; [reflexivity|].
    now rewrite <- app_assoc.
Qed.

Lemma list_comp_each (xs : list A) : list_comp e xs = spec.each e xs.
Proof.
  unfold list_comp. rewrite for_in_collect.
  now destruct (spec.each e xs).
Qed.

Lemma each_app (xs ys : list A) :
  spec.each e (xs ++ ys)
  = (a <- spec.each e xs ;; b <- spec.each e ys ;; ret (a ++ b)).
Proof.
  induction xs as [|x xs IH]; simpl.
  - now destruct (spec.each e ys).
  - destruct (e x) as [err|y]; simpl; [reflexivity|].
    rewrite IH. destruct (spec.each e xs) as [err|a]; simpl; [reflexivity|].
    now destruct (spec.each e ys).
Qed.

(** A walk returns exactly when every element is translated, and then the
    results stand in the order of the elements. *)
Lemma each_inr (xs : list A) (ys : list B) :
  spec.each e xs = inr ys <-> Forall2 (fun x y => e x = inr y) xs ys.
Proof.
  revert ys; induction xs as [|x xs IH]; intros ys; simpl.
  - split.
    + intros H; inversion H; constructor.
    + intros H; inversion H; reflexivity.
  - split.
    + destruct (e x) as [err|y] eqn:Hx; simpl; [discriminate|].
      destruct (spec.each e xs) as [err|ys'] eqn:Hxs; simpl; [discriminate|].
      intros H; inversion H; subst. constructor; [assumption|].
      now apply IH.
    + intros H; inversion H as [|x' y l l' Hx Hl]; subst.
      rewrite Hx; simpl. apply IH in Hl. now rewrite Hl.
Qed.

(** A walk raises what its first failing element raises, the elements
    before it having been translated. *)
Lemma each_inl (xs : list A) (err : exn) :
  spec.each e xs = inl err <->
  exists before x after done,
    xs = before ++ x :: after /\ spec.each e before = inr done /\ e x = inl err.
Proof.
  induction xs as [|x xs IH]; simpl.
  - split; [discriminate|].
    intros (before & x & after & done & H & _); now destruct before.
  - split.
    + destruct (e x) as [err'|y] eqn:Hx; simpl.
      * intros H; inversion H; subst.
        now exists [], x, xs, [].
      * destruct (spec.each e xs) as [err'|ys] eqn:Hxs; simpl; [|discriminate].
        intros H; inversion H; subst.
        destruct (proj1 IH eq_refl) as (before & x' & after & done & -> & Hb & Hx').
        exists (x :: before), x', after, (y :: done). simpl.
        now rewrite Hx, Hb.
    + intros (before & x' & after & done & Hxs & Hb & Hx').
      destruct before as [|b before]; simpl in Hxs; inversion Hxs; subst.
      * now rewrite Hx'.
      * simpl in Hb. destruct (e b) as [?|y]; simpl in *; [discriminate|].
        assert (H : spec.each e (before ++ x' :: after) = inl err).
        { apply IH. destruct (spec.each e before) as [?|d] eqn:Hd;
            simpl in Hb; [discriminate|].
          now exists before, x', after, d. }
        now rewrite H.
Qed.

(** A translation that never raises gives a plain [map]. *)
Lemma each_total (g : A -> B) (xs : list A) :
  (forall x, e x = inr (g x)) -> spec.each e xs = inr (map g xs).
Proof.
  intros He; induction xs as [|x xs IH]; simpl; [reflexivity|].
  now rewrite He, IH.
Qed.

End comprehensions.

Lemma list_comp2_each {A B C} (e : B -> result C) (inner : A -> list B)
      (xs : list A) :
  list_comp2 e xs inner = spec.each e (flat_map inner xs).
Proof.
  unfold list_comp2.
  assert (H : forall acc,
             for_in xs
               (fun acc x =>
                  for_in (inner x)
                         (fun acc' y => v <- e y ;; ret (acc' ++ [v])) acc) acc
             = (ys <- spec.each e (flat_map inner xs) ;; ret (acc ++ ys))).
  { induction xs as [|x xs IH]; intros acc.
    - simpl. now rewrite app_nil_r.
    - cbn [for_in flat_map]. rewrite for_in_collect, each_app.
      destruct (spec.each e (inner x)) as [err|a]; simpl; [reflexivity|].
      rewrite IH.
      destruct (spec.each e (flat_map inner xs)); simpl; [reflexivity|].
      now rewrite app_assoc. }
  rewrite H. now destruct (spec.each e (flat_map inner xs)).
Qed.

(* ===================================================================== *)
(** ** Exceptions and text *)
(* ===================================================================== *)

(** Every class is a subclass of itself. *)
Lemma issubclass_refl (c : ExcClass) : issubclass c c = true.
Proof.
  unfold issubclass. destruct (in_dec ExcClass_eq_dec c (mro c)) as [|n];
    [reflexivity|].
  exfalso; apply n. destruct c; simpl; auto.
Qed.

(** A class derived from a subclass of [d] is a subclass of [d]. *)
Lemma issubclass_derived (name : string) (c d : ExcClass) :
  issubclass c d = true -> issubclass (UserError name c) d = true.
Proof.
  unfold issubclass.
  destruct (in_dec ExcClass_eq_dec d (mro c)) as [i|]; [|discriminate].
  intros _. destruct (in_dec ExcClass_eq_dec d (mro (UserError name c)))
    as [|n]; [reflexivity|].
  exfalso; apply n. simpl; auto.
Qed.

(** What [try ... except cls] does, by the outcome of its body. *)
Lemma try_except_cases {A} (body handler : result A) (cls : ExcClass) :
  try_except body cls handler
  = match body with
    | inr v => inr v
    | inl e => if isinstance e cls then handler else inl e
    end.
Proof. now destruct body. Qed.

Lemma lower_char_not_upper (ch : ascii) : is_ascii_upper (lower_char ch) = false.
Proof.
  destruct ch as [[] [] [] [] [] [] [] []]; vm_compute; reflexivity.
Qed.

Lemma ascii_lower_length (s : string) :
  String.length (ascii_lower s) = String.length s.
Proof. induction s; simpl; congruence. Qed.

Lemma ascii_lower_get (s : string) (i : nat) :
  String.get i (ascii_lower s) = option_map lower_char (String.get i s).
Proof.
  revert i; induction s as [|ch s IH]; intros i; simpl; [reflexivity|].
  destruct i; simpl; [reflexivity|apply IH].
Qed.

(** Lowering by character code and lowering by the alphabets agree. *)
Lemma lower_char_by_alphabet (ch : ascii) :
  lower_char ch = spec.lowercase_letter ch.
Proof.
  destruct ch as [[] [] [] [] [] [] [] []]; vm_compute; reflexivity.
Qed.

Lemma lowercase_letter_not_upper (ch : ascii) :
  spec.place (spec.lowercase_letter ch) spec.upper_case = None.
Proof.
  destruct ch as [[] [] [] [] [] [] [] []]; vm_compute; reflexivity.
Qed.

(* ===================================================================== *)
(** ** The translation functions, case by case *)
(* ===================================================================== *)

Import sqla.

(** [relation_to_intermediary] raises nothing: [str] of a name returns. *)
Lemma relation_to_intermediary_returns (fk : sqlalchemy.ForeignKey) :
  relation_to_intermediary fk
  = inr {| models.left_col :=
             sqlalchemy.fullname (sqlalchemy.table (sqlalchemy.parent fk));
           models.right_col :=
             sqlalchemy.fullname (sqlalchemy.table (sqlalchemy.column fk));
           models.left_cardinality :=
             if sqlalchemy.nullable (sqlalchemy.parent fk) then "*" else "+";
           models.right_cardinality :=
             if sqlalchemy.nullable (sqlalchemy.column fk) then "?" else "1" |}.
Proof. reflexivity. Qed.

(** [format_type], by the outcome of the string conversion. *)
Lemma format_type_cases (typ : sqlalchemy.TypeEngine) :
  format_type typ
  = match unicode typ with
    | inr s => inr s
    | inl e => if isinstance e CompileError then inr "Null" else inl e
    end.
Proof. unfold format_type. apply try_except_cases. Qed.

(** [column_to_intermediary], by the outcome of the formatter. *)
Lemma column_to_intermediary_cases (col : sqlalchemy.Column)
      (type_formatter : sqlalchemy.TypeEngine -> result string) :
  column_to_intermediary col type_formatter
  = match type_formatter (sqlalchemy.type col) with
    | inr typ => inr {| models.name := sqlalchemy.name col;
                        models.type := typ;
                        models.is_key := sqlalchemy.primary_key col |}
    | inl e => inl e
    end.
Proof. reflexivity. Qed.

(** [table_to_intermediary] walks the columns in their declared order. *)
Lemma table_to_intermediary_cases (t : sqlalchemy.Table) :
  table_to_intermediary t
  = match spec.each (fun col => column_to_intermediary col format_type)
                    (values (sqlalchemy._data (sqlalchemy.c t))) with
    | inr cols => inr {| models.t_name := sqlalchemy.fullname t;
                         models.columns := cols |}
    | inl e => inl e
    end.
Proof. unfold table_to_intermediary. now rewrite list_comp_each. Qed.

(** The relations of a metadata: one per foreign key, none raising. *)
Lemma each_relation (fks : list sqlalchemy.ForeignKey) :
  exists rs, spec.each relation_to_intermediary fks = inr rs.
Proof.
  induction fks as [|fk fks [rs IH]]; simpl; [now exists []|].
  rewrite IH. simpl. eauto.
Qed.

(* ===================================================================== *)
(** ** The scenarios of the specification *)
(* ===================================================================== *)

(** Two tables, [users] and [orders], the second referring to the first
    through a column that is not nullable. *)
Example shop_translation :
  metadata_to_intermediary example.shop
  = inr ([ {| models.t_name := "users";
              models.columns :=
                [ {| models.name := "id"; models.type := "INTEGER";
                     models.is_key := true |};
                  {| models.name := "name"; models.type := "VARCHAR";
                     models.is_key := false |} ] |};
           {| models.t_name := "orders";
              models.columns :=
                [ {| models.name := "id"; models.type := "INTEGER";
                     models.is_key := true |};
                  {| models.name := "user_id"; models.type := "INTEGER";
                     models.is_key := false |} ] |} ],
         [ {| models.left_col := "orders"; models.right_col := "users";
              models.left_cardinality := "+";
              models.right_cardinality := "1" |} ]).
Proof. reflexivity. Qed.

(** A column whose type raises a compilation error on string conversion
    has type ["Null"], its name and key flag being kept. *)
Example untyped_column :
  column_to_intermediary
    {| sqlalchemy.name := "payload"; sqlalchemy.type := example.NullType;
       sqlalchemy.primary_key := true; sqlalchemy.nullable := false;
       sqlalchemy.table := example.users_t |}
    format_type
  = inr {| models.name := "payload"; models.type := "Null";
           models.is_key := true |}.
Proof. reflexivity. Qed.

(** [except CompileError] also catches the subclasses of [CompileError],
    SQLAlchemy's own and any other. *)
Example unsupported_type_is_Null : format_type example.Unsupported = inr "Null".
Proof. reflexivity. Qed.

Lemma derived_compile_error_is_Null (name msg : string) (base : ExcClass) :
  issubclass base CompileError = true ->
  format_type {| sqlalchemy.compile := raise (mk_exn (UserError name base) msg) |}
  = inr "Null".
Proof.
  intros H. rewrite format_type_cases. unfold unicode, __str__, sqlalchemy.Str_TypeEngine.
  cbn [sqlalchemy.compile raise Exception_either].
  unfold isinstance. cbn [exn_class]. now rewrite issubclass_derived.
Qed.

Example automap_names_the_accessor :
  @name_for_scalar_relationship ascii_interpreter _ _ _
                                tt tt {| __name__ := "UserAccount" |} tt
  = "useraccount_ref".
Proof. reflexivity. Qed.

(* ===================================================================== *)
(** ** The properties of the specification *)
(* ===================================================================== *)

(** C1: for every foreign key, [relation_to_intermediary] returns a
    relation whose left cardinality is [*] when the parent column (the one
    holding the key) is nullable and [+] otherwise, and whose right
    cardinality is [?] when the referred column is nullable and [1]
    otherwise. *)
Theorem relation_cardinality_follows_nullability (fk : sqlalchemy.ForeignKey) :
  exists r : models.Relation,
    relation_to_intermediary fk = inr r /\
    models.left_cardinality r
    = (if sqlalchemy.nullable (sqlalchemy.parent fk) then "*" else "+") /\
    models.right_cardinality r
    = (if sqlalchemy.nullable (sqlalchemy.column fk) then "?" else "1").
Proof.
  eexists; split; [apply relation_to_intermediary_returns|].
  split; reflexivity.
Qed.

(** C5: for every foreign key, the relation has [left_col] equal to the
    full name of the table owning the parent column and [right_col] equal
    to the full name of the table owning the referred column; they are
    table names, not column names: giving the two columns any other names
    leaves the relation as it was. *)
Theorem relation_endpoints_are_table_names (fk : sqlalchemy.ForeignKey) :
  (exists r : models.Relation,
     relation_to_intermediary fk = inr r /\
     models.left_col r
     = sqlalchemy.fullname (sqlalchemy.table (sqlalchemy.parent fk)) /\
     models.right_col r
     = sqlalchemy.fullname (sqlalchemy.table (sqlalchemy.column fk))) /\
  (forall p r : string,
     relation_to_intermediary (spec.with_column_names fk p r)
     = relation_to_intermediary fk).
Proof.
  split.
  - eexists; split; [apply relation_to_intermediary_returns|].
    split; reflexivity.
  - intros p r. now rewrite !relation_to_intermediary_returns.
Qed.

(** C9: every relation [relation_to_intermediary] returns has its left
    cardinality among [*] and [+] and its right cardinality among [?] and
    [1]; the left one is never [?] or [1], the right one never [*] or
    [+]. *)
Theorem relation_cardinality_ranges (fk : sqlalchemy.ForeignKey) :
  exists r : models.Relation,
    relation_to_intermediary fk = inr r /\
    In (models.left_cardinality r) ["*"; "+"] /\
    In (models.right_cardinality r) ["?"; "1"] /\
    ~ In (models.left_cardinality r) ["?"; "1"] /\
    ~ In (models.right_cardinality r) ["*"; "+"].
Proof.
  eexists; split; [apply relation_to_intermediary_returns|]. simpl.
  destruct (sqlalchemy.nullable (sqlalchemy.parent fk)),
           (sqlalchemy.nullable (sqlalchemy.column fk));
    repeat split; auto; intros [H|[H|[]]]; discriminate H.
Qed.

(** C3, as the specification words it, fails in one direction: a type
    whose string conversion returns the text ["Null"] makes [format_type]
    return ["Null"] although no [CompileError] was raised. *)
Lemma format_type_returns_Null_without_compile_error :
  format_type example.NullText = inr "Null" /\
  unicode example.NullText = inr "Null" /\
  (forall e, unicode example.NullText <> inl e).
Proof. repeat split; try reflexivity. intros e H; discriminate H. Qed.

(** C3, amended: the default type formatter returns the string conversion
    of the type; when the conversion raises a [CompileError] (or an
    instance of a subclass) it returns ["Null"]; any other exception is
    raised to the caller.  It returns ["Null"] exactly when the conversion
    raised a [CompileError] or itself returned the text ["Null"]. *)
Theorem format_type_catches_compile_error_only (typ : sqlalchemy.TypeEngine) :
  match unicode typ with
  | inr s => format_type typ = inr s
  | inl e => if isinstance e CompileError
             then format_type typ = inr "Null"
             else format_type typ = inl e
  end /\
  (format_type typ = inr "Null" <->
   unicode typ = inr "Null" \/
   exists e, unicode typ = inl e /\ isinstance e CompileError = true).
Proof.
  rewrite format_type_cases. destruct (unicode typ) as [e|s].
  - destruct (isinstance e CompileError) eqn:He.
    + split; [reflexivity|]. split.
      * intros _. right. now exists e.
      * reflexivity.
    + split; [reflexivity|]. split.
      * discriminate.
      * intros [H|(e' & H & He')]; [discriminate|].
        inversion H; subst. congruence.
  - split; [reflexivity|]. split.
    + now left.
    + intros [H|(e & H & _)]; [exact H|discriminate H].
Qed.

(** C4: for every column, and every type formatter, the column
    [column_to_intermediary] returns has [is_key] equal to the source
    column's primary-key flag and [name] equal to its name (and the type
    the formatter gave); it returns whenever the formatter does. *)
Theorem column_keeps_name_and_key (col : sqlalchemy.Column)
        (type_formatter : sqlalchemy.TypeEngine -> result string) :
  match column_to_intermediary col type_formatter with
  | inr out =>
      models.is_key out = sqlalchemy.primary_key col /\
      models.name out = sqlalchemy.name col /\
      type_formatter (sqlalchemy.type col) = inr (models.type out)
  | inl e => type_formatter (sqlalchemy.type col) = inl e
  end.
Proof.
  rewrite column_to_intermediary_cases.
  destruct (type_formatter (sqlalchemy.type col)); simpl; auto.
Qed.

(** C6: for every table, the table [table_to_intermediary] returns has the
    source table's full name, and its columns are the translations of the
    source columns, one for one and in declaration order; it returns
    unless a column's translation raises, and then raises what the first
    such column raised. *)
Theorem table_keeps_name_and_column_order (t : sqlalchemy.Table) :
  let declared := values (sqlalchemy._data (sqlalchemy.c t)) in
  match table_to_intermediary t with
  | inr out =>
      models.t_name out = sqlalchemy.fullname t /\
      List.length (models.columns out) = List.length declared /\
      Forall2 (fun col out_col =>
                 column_to_intermediary col format_type = inr out_col)
              declared (models.columns out)
  | inl e =>
      exists before col after done,
        declared = before ++ col :: after /\
        Forall2 (fun col out_col =>
                   column_to_intermediary col format_type = inr out_col)
                before done /\
        column_to_intermediary col format_type = inl e
  end.
Proof.
  intros declared. rewrite table_to_intermediary_cases. fold declared.
  destruct (spec.each _ declared) as [e|cols] eqn:H.
  - apply each_inl in H.
    destruct H as (before & col & after & done & Hd & Hb & Hc).
    exists before, col, after, done. now rewrite <- each_inr.
  - apply each_inr in H. simpl. repeat split; [|exact H].
    symmetry. eapply Forall2_length, H.
Qed.

(** C2: for every metadata, [metadata_to_intermediary] returns the pair of
    the translated tables, in the iteration order of the metadata's
    tables, and of the relations obtained by applying
    [relation_to_intermediary] to every foreign key of every table, in
    table order then per-table foreign-key order; it returns unless a
    table's translation raises.  With no table it returns [([], [])]. *)
Theorem metadata_translates_tables_then_foreign_keys
        (metadata : sqlalchemy.MetaData) :
  metadata_to_intermediary metadata = spec.translate_metadata metadata /\
  match metadata_to_intermediary metadata with
  | inr (tables, relations) =>
      Forall2 (fun t out => table_to_intermediary t = inr out)
              (values (sqlalchemy.tables metadata)) tables /\
      Forall2 (fun fk out => relation_to_intermediary fk = inr out)
              (flat_map sqlalchemy.foreign_keys
                        (values (sqlalchemy.tables metadata)))
              relations
  | inl e =>
      exists t, In t (values (sqlalchemy.tables metadata)) /\
                table_to_intermediary t = inl e
  end /\
  metadata_to_intermediary {| sqlalchemy.tables := [] |} = inr ([], []).
Proof.
  assert (Heq : metadata_to_intermediary metadata
                = spec.translate_metadata metadata).
  { unfold metadata_to_intermediary, spec.translate_metadata.
    now rewrite list_comp_each, list_comp2_each. }
  split; [exact Heq|]. split; [|reflexivity].
  rewrite Heq. unfold spec.translate_metadata, spec.every_foreign_key.
  destruct (spec.each table_to_intermediary _) as [e|tables] eqn:Ht.
  - apply each_inl in Ht.
    destruct Ht as (before & t & after & done & Hd & _ & Hr).
    exists t. split; [|exact Hr]. rewrite Hd. apply in_elt.
  - destruct (each_relation
                (flat_map sqlalchemy.foreign_keys
                          (values (sqlalchemy.tables metadata))))
      as [relations Hr].
    cbn [bind Monad_either]. rewrite Hr. cbn [ret].
    split; now apply each_inr.
Qed.

(** C8: for every declarative base, [declarative_to_intermediary] gives
    exactly what [metadata_to_intermediary] gives on the base's metadata:
    the same pair, or the same exception. *)
Theorem declarative_base_passes_through (base : sqlalchemy.DeclarativeBase) :
  declarative_to_intermediary base
  = metadata_to_intermediary (sqlalchemy.metadata base).
Proof. reflexivity. Qed.

(** C10: called with [(base, local_cls, referred_cls, constraint)], the
    naming callback returns the lowercased name of the referred class
    followed by [_ref], whatever the three other arguments are; for a name
    in ASCII that is, character by character, the name with each letter of
    [A-Z] replaced by the same letter of [a-z], then [_ref]. *)
Theorem relationship_is_named_after_referred_class
        `{StrLower} {B L K : Type} (base : B) (local_cls : L)
        (referred_cls : class) (constraint : K) :
  name_for_scalar_relationship base local_cls referred_cls constraint
  = (lower (__name__ referred_cls) ++ "_ref")%string /\
  (isascii (__name__ referred_cls) = true ->
   spec.is_lowercased_with_ref
     (__name__ referred_cls)
     (name_for_scalar_relationship base local_cls referred_cls constraint)).
Proof.
  split; [reflexivity|]. intros Hascii.
  unfold name_for_scalar_relationship. rewrite (lower_on_ascii _ Hascii).
  exists (ascii_lower (__name__ referred_cls)).
  split; [reflexivity|]. split; [apply ascii_lower_length|].
  split.
  - intros i. rewrite ascii_lower_get.
    destruct (String.get i (__name__ referred_cls)); simpl; [|reflexivity].
    now rewrite lower_char_by_alphabet.
  - intros i ch. rewrite ascii_lower_get.
    destruct (String.get i (__name__ referred_cls)); simpl; [|discriminate].
    intros Hch; inversion Hch. rewrite lower_char_by_alphabet.
    apply lowercase_letter_not_upper.
Qed.

Lemma relationship_is_named_after_referred_class_run :
  spec.is_lowercased_with_ref "UserAccount" "useraccount_ref".
Proof.
  exact (proj2 (@relationship_is_named_after_referred_class
                  ascii_interpreter unit unit unit
                  tt tt {| __name__ := "UserAccount" |} tt)
               eq_refl).
Defined.

(** C7, as the specification words it, fails twice.  A type whose string
    conversion raises an [AttributeError] is not rendered as ["Null"]: the
    exception leaves [format_type], [column_to_intermediary] and
    [table_to_intermediary].  And the name of a column is copied, not
    coerced: a column whose name is [None] gives a column whose name is
    [None], which is no text. *)
Lemma type_rendering_raises_other_exceptions :
  (unicode example.Point = inl example.no_col_spec /\
   isinstance example.no_col_spec CompileError = false /\
   format_type example.Point = inl example.no_col_spec /\
   column_to_intermediary example.location format_type
   = inl example.no_col_spec /\
   table_to_intermediary example.places = inl example.no_col_spec) /\
  (column_to_intermediary example.nameless format_type
   = inr {| models.name := PyNone; models.type := "INTEGER";
            models.is_key := false |} /\
   is_text PyNone = false).
Proof. repeat split; reflexivity. Qed.

(** C7, amended: the two names of a relation are text, coerced to string
    by [format_name]; the type of a column is text, and its name is the
    name of the source column, copied as it is and not coerced: text when
    that is text, [None] when that is [None].  Rendering a type raises no
    [CompileError]: when the string conversion raises one (or an instance
    of a subclass) the type is ["Null"], when it returns the type is its
    text, and any other exception it raises is raised to the caller. *)
Theorem names_and_types_are_text_compile_errors_give_Null
        (col : sqlalchemy.Column) (fk : sqlalchemy.ForeignKey) :
  (exists (left right : string) (r : models.Relation),
     relation_to_intermediary fk = inr r /\
     format_name
       (sqlalchemy.fullname (sqlalchemy.table (sqlalchemy.parent fk)))
     = inr left /\
     format_name
       (sqlalchemy.fullname (sqlalchemy.table (sqlalchemy.column fk)))
     = inr right /\
     models.left_col r = left /\ models.right_col r = right) /\
  match unicode (sqlalchemy.type col) with
  | inr text =>
      column_to_intermediary col format_type
      = inr {| models.name := sqlalchemy.name col;
               models.type := text;
               models.is_key := sqlalchemy.primary_key col |}
  | inl e =>
      if isinstance e CompileError
      then column_to_intermediary col format_type
           = inr {| models.name := sqlalchemy.name col;
                    models.type := "Null";
                    models.is_key := sqlalchemy.primary_key col |}
      else column_to_intermediary col format_type = inl e
  end /\
  match column_to_intermediary col format_type with
  | inr out =>
      models.name out = sqlalchemy.name col /\
      is_text (models.name out) = is_text (sqlalchemy.name col)
  | inl e => isinstance e CompileError = false
  end.
Proof.
  split; [|split].
  - do 3 eexists. split; [apply relation_to_intermediary_returns|].
    repeat split; reflexivity.
  - rewrite column_to_intermediary_cases, format_type_cases.
    destruct (unicode (sqlalchemy.type col)) as [e|text]; [|reflexivity].
    now destruct (isinstance e CompileError).
  - rewrite column_to_intermediary_cases, format_type_cases.
    destruct (unicode (sqlalchemy.type col)) as [e|text]; [|now split].
    destruct (isinstance e CompileError) eqn:He; [now split|exact He].
Qed.

(* ===================================================================== *)
(** ** Further properties of the translation *)
(* ===================================================================== *)

Section walks.
Variables A B : Type.
Variable e : A -> result B.

(** A walk returns exactly when each of its steps does. *)
Lemma each_returns (xs : list A) :
  (exists ys, spec.each e xs = inr ys) <->
  Forall (fun x => exists y, e x = inr y) xs.
Proof.
  induction xs as [|x xs IH]; simpl.
  - split; [constructor | now exists []].
  - split.
    + intros [ys H]. destruct (e x) as [|y] eqn:Hx; simpl in H; [discriminate|].
      destruct (spec.each e xs) as [|ys'] eqn:Hxs; simpl in H; [discriminate|].
      constructor; [now exists y|]. apply IH. now exists ys'.
    + intros H. inversion H as [|x' l [y Hx] Hl]; subst.
      apply IH in Hl. destruct Hl as [ys Hxs].
      rewrite Hx, Hxs. simpl. eauto.
Qed.

(** What the results of a walk share with the elements walked. *)
Lemma Forall2_map_eq {C : Type} (g : B -> C) (h : A -> C)
      (xs : list A) (ys : list B) :
  (forall x y, e x = inr y -> g y = h x) ->
  Forall2 (fun x y => e x = inr y) xs ys ->
  map g ys = map h xs.
Proof.
  intros Hgh H. induction H as [|x y xs ys Hxy _ IH]; simpl; [reflexivity|].
  now rewrite IH, (Hgh _ _ Hxy).
Qed.

End walks.

Lemma values_app {V} (d1 d2 : OrderedDict V) :
  values (d1 ++ d2) = values d1 ++ values d2.
Proof. apply map_app. Qed.

(** Text put before the same ending is the same text. *)
Lemma append_cancel_r (s1 s2 t : string) :
  (s1 ++ t)%string = (s2 ++ t)%string -> s1 = s2.
Proof.
  assert (Hlen : forall a b, String.length (a ++ b)%string
                             = String.length a + String.length b).
  { induction a; simpl; intros; [reflexivity | now rewrite IHa]. }
  revert s2; induction s1 as [|ch s1 IH]; intros [|ch2 s2] H; simpl in H.
  - reflexivity.
  - apply (f_equal String.length) in H. simpl in H. rewrite Hlen in H. lia.
  - apply (f_equal String.length) in H. simpl in H. rewrite Hlen in H. lia.
  - inversion H; subst. f_equal. now apply IH.
Qed.

(** A column is translated exactly when its type renders. *)
Lemma column_returns (col : sqlalchemy.Column) :
  (exists out, column_to_intermediary col format_type = inr out) <->
  schema.type_renders (sqlalchemy.type col) = true.
Proof.
  rewrite column_to_intermediary_cases, format_type_cases.
  unfold schema.type_renders.
  destruct (unicode (sqlalchemy.type col)) as [e|text].
  - destruct (isinstance e CompileError); split; eauto; try discriminate.
    intros [out H]; discriminate H.
  - split; eauto.
Qed.

(** A column's translation raises nothing [format_type] catches. *)
Lemma column_raises (col : sqlalchemy.Column) (e : exn) :
  column_to_intermediary col format_type = inl e ->
  unicode (sqlalchemy.type col) = inl e /\ isinstance e CompileError = false.
Proof.
  rewrite column_to_intermediary_cases, format_type_cases.
  destruct (unicode (sqlalchemy.type col)) as [e'|text]; [|discriminate].
  destruct (isinstance e' CompileError) eqn:He; [discriminate|].
  intros H; inversion H; subst. now split.
Qed.

Lemma table_returns (t : sqlalchemy.Table) :
  (exists out, table_to_intermediary t = inr out) <->
  schema.table_renders t = true.
Proof.
  unfold schema.table_renders. rewrite forallb_forall, <- Forall_forall.
  rewrite table_to_intermediary_cases.
  set (declared := values (sqlalchemy._data (sqlalchemy.c t))).
  transitivity (Forall (fun col => exists out,
                            column_to_intermediary col format_type = inr out)
                       declared).
  - rewrite <- each_returns.
    destruct (spec.each _ declared) as [e|cols]; split; eauto.
    + intros [out H]; discriminate H.
    + intros [out H]; discriminate H.
  - split; apply Forall_impl; intros col; apply column_returns.
Qed.

Lemma table_raises (t : sqlalchemy.Table) (e : exn) :
  table_to_intermediary t = inl e -> isinstance e CompileError = false.
Proof.
  rewrite table_to_intermediary_cases.
  destruct (spec.each _ _) as [e'|cols] eqn:H; [|discriminate].
  intros He; inversion He; subst.
  apply each_inl in H. destruct H as (_ & col & _ & _ & _ & _ & Hc).
  now apply column_raises in Hc.
Qed.

(** [metadata_to_intermediary], by the outcome of the walk over the
    tables: the relations never stand in its way. *)
Lemma metadata_to_intermediary_cases (metadata : sqlalchemy.MetaData) :
  metadata_to_intermediary metadata
  = match spec.each table_to_intermediary
                    (values (sqlalchemy.tables metadata)) with
    | inr tables =>
        inr (tables,
             map (fun fk =>
                    {| models.left_col :=
                         sqlalchemy.fullname
                           (sqlalchemy.table (sqlalchemy.parent fk));
                       models.right_col :=
                         sqlalchemy.fullname
                           (sqlalchemy.table (sqlalchemy.column fk));
                       models.left_cardinality :=
                         if sqlalchemy.nullable (sqlalchemy.parent fk)
                         then "*" else "+";
                       models.right_cardinality :=
                         if sqlalchemy.nullable (sqlalchemy.column fk)
                         then "?" else "1" |})
                 (spec.every_foreign_key metadata))
    | inl e => inl e
    end.
Proof.
  unfold metadata_to_intermediary.
  rewrite list_comp_each, list_comp2_each.
  destruct (spec.each table_to_intermediary _) as [e|tables];
    [reflexivity|].
  cbn [bind Monad_either]. fold (spec.every_foreign_key metadata).
  rewrite (each_total relation_to_intermediary _
                      (spec.every_foreign_key metadata)
                      relation_to_intermediary_returns).
  reflexivity.
Qed.

(** X1: [format_type] gives ["Null"] in two cases that its caller cannot
    tell apart: the string conversion raised a [CompileError], or the type
    really renders as the text ["Null"]. *)
Theorem format_type_Null_has_two_origins (typ : sqlalchemy.TypeEngine) :
  format_type typ = inr "Null" <->
  unicode typ = inr "Null" \/
  exists e, unicode typ = inl e /\ isinstance e CompileError = true.
Proof.
  rewrite format_type_cases. destruct (unicode typ) as [e|text].
  - destruct (isinstance e CompileError) eqn:He; split.
    + intros _. right. now exists e.
    + reflexivity.
    + discriminate.
    + intros [H|(e' & H & He')]; [discriminate|].
      inversion H; subst. congruence.
  - split; [now left|]. intros [H|(e & H & _)]; [exact H|discriminate].
Qed.

(** X2: [table_to_intermediary] returns exactly when every column type of
    the table renders, that is, when its string conversion returns or
    raises a [CompileError]; this can be checked on the table before
    translating it.  [metadata_to_intermediary] returns only when it holds
    of every table of the metadata. *)
Theorem translation_returns_only_if_types_render
        (t : sqlalchemy.Table) (metadata : sqlalchemy.MetaData) :
  ((exists out, table_to_intermediary t = inr out) <->
   schema.table_renders t = true) /\
  match metadata_to_intermediary metadata with
  | inr _ => schema.metadata_renders metadata = true
  | inl _ => True
  end.
Proof.
  split; [apply table_returns|].
  unfold metadata_to_intermediary. rewrite list_comp_each.
  destruct (spec.each table_to_intermediary _) as [e|tables] eqn:H;
    [exact I|].
  cbn [bind Monad_either].
  destruct (list_comp2 _ _ _); [exact I|]. cbn [ret].
  unfold schema.metadata_renders. apply forallb_forall. intros t' Hin.
  apply table_returns.
  assert (Hall : Forall (fun t => exists out, table_to_intermediary t = inr out)
                        (values (sqlalchemy.tables metadata))).
  { apply each_returns. now exists tables. }
  rewrite Forall_forall in Hall. now apply Hall.
Qed.

(** X3: no [CompileError] leaves [metadata_to_intermediary]: whatever it
    raises is not an instance of [CompileError]. *)
Theorem metadata_raises_no_compile_error (metadata : sqlalchemy.MetaData) :
  match metadata_to_intermediary metadata with
  | inr _ => True
  | inl e => isinstance e CompileError = false
  end.
Proof.
  rewrite metadata_to_intermediary_cases.
  destruct (spec.each table_to_intermediary _) as [e|tables] eqn:H;
    [|exact I].
  apply each_inl in H. destruct H as (_ & t & _ & _ & _ & _ & Ht).
  now apply table_raises in Ht.
Qed.

(** X4: the tables are translated before any relation is built, and in
    iteration order: when a table's translation raises [e] and the tables
    before it are translated, [metadata_to_intermediary] raises [e],
    whatever the later tables and the foreign keys are. *)
Theorem metadata_raises_what_first_failing_table_raises
        (metadata : sqlalchemy.MetaData) (e : exn)
        (before after : list sqlalchemy.Table) (t : sqlalchemy.Table) :
  values (sqlalchemy.tables metadata) = before ++ t :: after ->
  Forall (fun t' => exists out, table_to_intermediary t' = inr out) before ->
  table_to_intermediary t = inl e ->
  metadata_to_intermediary metadata = inl e.
Proof.
  intros Hv Hb Ht. apply each_returns in Hb. destruct Hb as [done Hb].
  assert (H : spec.each table_to_intermediary
                        (values (sqlalchemy.tables metadata)) = inl e).
  { apply each_inl. now exists before, t, after, done. }
  unfold metadata_to_intermediary. rewrite list_comp_each, H. reflexivity.
Qed.

Lemma metadata_raises_what_first_failing_table_raises_run :
  metadata_to_intermediary
    {| sqlalchemy.tables :=
         [("users", example.users); ("places", example.places);
          ("orders", example.orders)] |}
  = inl example.no_col_spec.
Proof.
  apply (@metadata_raises_what_first_failing_table_raises
           _ example.no_col_spec
           [example.users] [example.orders] example.places).
  - reflexivity.
  - constructor; [|constructor]. eexists. reflexivity.
  - reflexivity.
Defined.

(** X5: the relation of a foreign key tells the two table names and the
    two nullability flags, and nothing else: two foreign keys get the same
    relation exactly when they agree on these four. *)
Theorem relation_determined_by_tables_and_nullability
        (fk1 fk2 : sqlalchemy.ForeignKey) :
  relation_to_intermediary fk1 = relation_to_intermediary fk2 <->
  sqlalchemy.fullname (sqlalchemy.table (sqlalchemy.parent fk1))
  = sqlalchemy.fullname (sqlalchemy.table (sqlalchemy.parent fk2)) /\
  sqlalchemy.fullname (sqlalchemy.table (sqlalchemy.column fk1))
  = sqlalchemy.fullname (sqlalchemy.table (sqlalchemy.column fk2)) /\
  sqlalchemy.nullable (sqlalchemy.parent fk1)
  = sqlalchemy.nullable (sqlalchemy.parent fk2) /\
  sqlalchemy.nullable (sqlalchemy.column fk1)
  = sqlalchemy.nullable (sqlalchemy.column fk2).
Proof.
  rewrite !relation_to_intermediary_returns. split.
  - intros H; inversion H as [[Hl Hr Hlc Hrc]].
    repeat split; trivial.
    + destruct (sqlalchemy.nullable (sqlalchemy.parent fk1)),
               (sqlalchemy.nullable (sqlalchemy.parent fk2));
        try reflexivity; discriminate Hlc.
    + destruct (sqlalchemy.nullable (sqlalchemy.column fk1)),
               (sqlalchemy.nullable (sqlalchemy.column fk2));
        try reflexivity; discriminate Hrc.
  - intros (-> & -> & -> & ->). reflexivity.
Qed.

(** X6: when [table_to_intermediary] returns, the names, the key flags and
    the types of the columns it gives are, in order, the names and the
    primary-key flags of the declared columns and the texts their types
    are shown as (["Null"] for a type that raised a [CompileError]); the
    keys of the column dictionary play no part. *)
Theorem table_columns_are_the_declared_ones
        (t : sqlalchemy.Table) (out : models.Table) :
  table_to_intermediary t = inr out ->
  let declared := values (sqlalchemy._data (sqlalchemy.c t)) in
  map models.name (models.columns out) = map sqlalchemy.name declared /\
  map models.is_key (models.columns out)
  = map sqlalchemy.primary_key declared /\
  map models.type (models.columns out)
  = map (fun col => schema.shown_type (sqlalchemy.type col)) declared.
Proof.
  rewrite table_to_intermediary_cases.
  destruct (spec.each _ _) as [e|cols] eqn:H; [discriminate|].
  intros Hout; inversion Hout; subst; clear Hout. cbn [models.columns].
  apply each_inr in H.
  assert (Hcol : forall col c,
             column_to_intermediary col format_type = inr c ->
             models.name c = sqlalchemy.name col /\
             models.is_key c = sqlalchemy.primary_key col /\
             models.type c = schema.shown_type (sqlalchemy.type col)).
  { intros col c. rewrite column_to_intermediary_cases, format_type_cases.
    unfold schema.shown_type.
    destruct (unicode (sqlalchemy.type col)) as [e|text].
    - destruct (isinstance e CompileError); [|discriminate].
      intros Hc; inversion Hc; now subst.
    - intros Hc; inversion Hc; now subst. }
  repeat split;
    (eapply Forall2_map_eq; [|exact H]); intros col c Hc;
    now apply Hcol in Hc.
Qed.

Lemma table_columns_are_the_declared_ones_run :
  map models.name
      [ {| models.name := "id"; models.type := "INTEGER";
           models.is_key := true |};
        {| models.name := "name"; models.type := "VARCHAR";
           models.is_key := false |} ]
  = [Text "id"; Text "name"].
Proof.
  exact (proj1 (@table_columns_are_the_declared_ones
                  example.users
                  {| models.t_name := "users";
                     models.columns :=
                       [ {| models.name := "id"; models.type := "INTEGER";
                            models.is_key := true |};
                         {| models.name := "name"; models.type := "VARCHAR";
                            models.is_key := false |} ] |}
                  eq_refl)).
Defined.

(** X7: when [metadata_to_intermediary] returns, there is one table per
    table of the metadata, named after it, in order, and one relation per
    foreign key, in order, none merged and none dropped, whose ends are the
    names of the foreign key's two tables. *)
Theorem metadata_output_follows_the_schema
        (metadata : sqlalchemy.MetaData)
        (tables : list models.Table) (relations : list models.Relation) :
  metadata_to_intermediary metadata = inr (tables, relations) ->
  map models.t_name tables
  = map (fun t : sqlalchemy.Table => sqlalchemy.fullname t)
        (values (sqlalchemy.tables metadata)) /\
  List.length relations = List.length (spec.every_foreign_key metadata) /\
  map models.left_col relations
  = map (fun fk => sqlalchemy.fullname
                     (sqlalchemy.table (sqlalchemy.parent fk)))
        (spec.every_foreign_key metadata) /\
  map models.right_col relations
  = map (fun fk => sqlalchemy.fullname
                     (sqlalchemy.table (sqlalchemy.column fk)))
        (spec.every_foreign_key metadata).
Proof.
  rewrite metadata_to_intermediary_cases.
  destruct (spec.each table_to_intermediary _) as [e|ts] eqn:H;
    [discriminate|].
  intros Hout; inversion Hout; subst; clear Hout.
  apply each_inr in H. split; [|split; [|split]].
  - eapply Forall2_map_eq; [|exact H]. intros t out.
    rewrite table_to_intermediary_cases.
    destruct (spec.each _ _); [discriminate|].
    intros Ht; inversion Ht; now subst.
  - apply length_map.
  - now rewrite map_map.
  - now rewrite map_map.
Qed.

Lemma metadata_output_follows_the_schema_run :
  map models.t_name
      [ {| models.t_name := "users";
           models.columns :=
             [ {| models.name := "id"; models.type := "INTEGER";
                  models.is_key := true |};
               {| models.name := "name"; models.type := "VARCHAR";
                  models.is_key := false |} ] |};
        {| models.t_name := "orders";
           models.columns :=
             [ {| models.name := "id"; models.type := "INTEGER";
                  models.is_key := true |};
               {| models.name := "user_id"; models.type := "INTEGER";
                  models.is_key := false |} ] |} ]
  = ["users"; "orders"].
Proof.
  exact (proj1 (@metadata_output_follows_the_schema
                  example.shop _ _ eq_refl)).
Defined.

Lemma table_names_kept (ts : list sqlalchemy.Table) (outs : list models.Table) :
  spec.each table_to_intermediary ts = inr outs ->
  map models.t_name outs
  = map (fun t : sqlalchemy.Table => sqlalchemy.fullname t) ts.
Proof.
  intros H. apply each_inr in H.
  eapply Forall2_map_eq; [|exact H]. intros t out.
  rewrite table_to_intermediary_cases.
  destruct (spec.each _ _); [discriminate|].
  intros Ht; inversion Ht; now subst.
Qed.

(** X8: [metadata_to_intermediary] does not check where a foreign key
    leads; when every foreign key of the metadata starts and ends at one
    of its tables, both ends of every relation returned are names of
    tables returned with it. *)
Theorem relation_ends_are_translated_tables
        (metadata : sqlalchemy.MetaData)
        (tables : list models.Table) (relations : list models.Relation) :
  schema.references_resolve metadata ->
  metadata_to_intermediary metadata = inr (tables, relations) ->
  forall r, In r relations ->
            In (models.left_col r) (map models.t_name tables) /\
            In (models.right_col r) (map models.t_name tables).
Proof.
  intros Hwf. rewrite metadata_to_intermediary_cases.
  destruct (spec.each table_to_intermediary _) as [e|ts] eqn:H;
    [discriminate|].
  intros Hout; inversion Hout; subst; clear Hout.
  rewrite (table_names_kept _ H).
  intros r Hr. apply in_map_iff in Hr. destruct Hr as (fk & <- & Hfk).
  apply in_flat_map in Hfk. destruct Hfk as (t & Ht & Hfk).
  destruct (Hwf t fk Ht Hfk) as [Hp Hc]. cbn [models.left_col models.right_col].
  apply in_map_iff in Hp. destruct Hp as (tp & Hp & Htp).
  apply in_map_iff in Hc. destruct Hc as (tc & Hc & Htc).
  split; apply in_map_iff.
  - exists tp. now rewrite Hp.
  - exists tc. now rewrite Hc.
Qed.

Lemma relation_ends_are_translated_tables_run :
  In "orders" ["users"; "orders"] /\ In "users" ["users"; "orders"].
Proof.
  refine (@relation_ends_are_translated_tables
            example.shop _ _ _ eq_refl
            {| models.left_col := "orders"; models.right_col := "users";
               models.left_cardinality := "+";
               models.right_cardinality := "1" |}
            (or_introl eq_refl)).
  intros t fk [<-|[<-|[]]]; simpl; intros Hfk; [contradiction|].
  destruct Hfk as [<-|[]]; simpl; auto.
Defined.

(** X9: when two metadata are each translated, and their tables have
    different keys, translating the metadata that holds the tables of the
    first followed by those of the second gives the tables of the first
    translation followed by those of the second, and likewise the
    relations. *)
Theorem metadata_translation_of_merged_metadata
        (m1 m2 : sqlalchemy.MetaData)
        (t1 t2 : list models.Table) (r1 r2 : list models.Relation) :
  NoDup (map fst (sqlalchemy.tables (schema.merged m1 m2))) ->
  metadata_to_intermediary m1 = inr (t1, r1) ->
  metadata_to_intermediary m2 = inr (t2, r2) ->
  metadata_to_intermediary (schema.merged m1 m2) = inr (t1 ++ t2, r1 ++ r2).
Proof.
  intros _. rewrite !metadata_to_intermediary_cases.
  unfold schema.merged, spec.every_foreign_key. cbn [sqlalchemy.tables].
  rewrite values_app, each_app, flat_map_app, map_app.
  destruct (spec.each table_to_intermediary (values (sqlalchemy.tables m1)));
    [discriminate|].
  destruct (spec.each table_to_intermediary (values (sqlalchemy.tables m2)));
    [discriminate|].
  intros H1 H2; inversion H1; inversion H2; subst. reflexivity.
Qed.

Lemma metadata_translation_of_merged_metadata_run :
  metadata_to_intermediary example.shop
  = inr ([ {| models.t_name := "users";
              models.columns :=
                [ {| models.name := "id"; models.type := "INTEGER";
                     models.is_key := true |};
                  {| models.name := "name"; models.type := "VARCHAR";
                     models.is_key := false |} ] |} ]
         ++ [ {| models.t_name := "orders";
                 models.columns :=
                   [ {| models.name := "id"; models.type := "INTEGER";
                        models.is_key := true |};
                     {| models.name := "user_id"; models.type := "INTEGER";
                        models.is_key := false |} ] |} ],
         []
         ++ [ {| models.left_col := "orders"; models.right_col := "users";
                 models.left_cardinality := "+";
                 models.right_cardinality := "1" |} ]).
Proof.
  apply (@metadata_translation_of_merged_metadata
           {| sqlalchemy.tables := [("users", example.users)] |}
           {| sqlalchemy.tables := [("orders", example.orders)] |}).
  - simpl. repeat constructor; simpl; intuition discriminate.
  - reflexivity.
  - reflexivity.
Defined.

(** X10: the accessor names given for two referred classes are the same
    exactly when the lowercased class names are the same, whatever the
    other arguments are; for names in ASCII, exactly when the names are
    the same up to the case of their letters [A-Z]. *)
Theorem accessor_names_collide_up_to_case
        `{StrLower} {B L K B' L' K' : Type}
        (base : B) (local_cls : L) (constraint : K)
        (base' : B') (local_cls' : L') (constraint' : K')
        (referred_cls referred_cls' : class) :
  (name_for_scalar_relationship base local_cls referred_cls constraint
   = name_for_scalar_relationship base' local_cls' referred_cls' constraint'
   <-> lower (__name__ referred_cls) = lower (__name__ referred_cls')) /\
  (isascii (__name__ referred_cls) = true ->
   isascii (__name__ referred_cls') = true ->
   (name_for_scalar_relationship base local_cls referred_cls constraint
    = name_for_scalar_relationship base' local_cls' referred_cls' constraint'
    <-> ascii_lower (__name__ referred_cls)
        = ascii_lower (__name__ referred_cls'))).
Proof.
  assert (Hgen : name_for_scalar_relationship base local_cls referred_cls
                                              constraint
                 = name_for_scalar_relationship base' local_cls' referred_cls'
                                                constraint'
                 <-> lower (__name__ referred_cls)
                     = lower (__name__ referred_cls')).
  { unfold name_for_scalar_relationship. split.
    - apply append_cancel_r.
    - now intros ->. }
  split; [exact Hgen|].
  intros H1 H2. rewrite Hgen.
  now rewrite (lower_on_ascii _ H1), (lower_on_ascii _ H2).
Qed.

Lemma accessor_names_collide_up_to_case_run :
  @name_for_scalar_relationship ascii_interpreter unit unit unit
                                tt tt {| __name__ := "User" |} tt
  = @name_for_scalar_relationship ascii_interpreter unit unit unit
                                  tt tt {| __name__ := "USER" |} tt.
Proof.
  apply (proj2 (@accessor_names_collide_up_to_case
                  ascii_interpreter unit unit unit unit unit unit
                  tt tt tt tt tt tt
                  {| __name__ := "User" |} {| __name__ := "USER" |})
               eq_refl eq_refl).
  reflexivity.
Defined.

(** X11: whatever [table_to_intermediary] raises was raised by the string
    conversion of the type of one of the table's columns, and is not a
    [CompileError]: translating a table adds no exception of its own. *)
Theorem table_raises_what_a_column_type_raised
        (t : sqlalchemy.Table) (e : exn) :
  table_to_intermediary t = inl e ->
  exists col,
    In col (values (sqlalchemy._data (sqlalchemy.c t))) /\
    unicode (sqlalchemy.type col) = inl e /\
    isinstance e CompileError = false.
Proof.
  rewrite table_to_intermediary_cases.
  destruct (spec.each _ _) as [e'|cols] eqn:Hcols; [|discriminate].
  intros He; inversion He; subst; clear He.
  apply each_inl in Hcols.
  destruct Hcols as (cb & col & ca & _ & Hc & _ & Hcol).
  apply column_raises in Hcol. destruct Hcol as [Hu Hi].
  exists col. repeat split; trivial.
  rewrite Hc. apply in_elt.
Qed.

Lemma table_raises_what_a_column_type_raised_run :
  exists col,
    In col (values (sqlalchemy._data (sqlalchemy.c example.places))) /\
    unicode (sqlalchemy.type col) = inl example.no_col_spec /\
    isinstance example.no_col_spec CompileError = false.
Proof.
  exact (@table_raises_what_a_column_type_raised
           example.places example.no_col_spec eq_refl).
Defined.
